(** * wradlib.qual: radar data-quality formulas

    A shallow embedding of [wradlib/qual.py]: the two beam-height models
    ([beam_height_ft], [beam_height_ft_doviak]), [pulse_volume] and
    [beam_block_frac], followed by the properties of these formulas.

    The functions are element-wise NumPy expressions.  One broadcast
    element is modelled: a value of type [float64] is a real number or
    one of the IEEE special values [+inf], [-inf], [nan].  Arithmetic on
    finite values is exact real arithmetic (rounding, overflow and
    underflow are not modelled, and zero carries no sign); the special
    values follow NumPy's rules for invalid operations, which never
    raise: [sqrt] of a negative number and [arcsin] outside [[-1, 1]]
    are [nan], a division by zero is an infinity or [nan].  The inputs
    are NumPy arrays or scalars, as the module's docstring asks ("they
    exhibit the numpy ndarray interface"); the keyword argument
    [degrees] is a [bool] and the default of [re] is [default_re].

    Two further models cover what the one above leaves out.
    [beam_block_frac_py] is [beam_block_frac] called with plain Python
    floats, whose division raises [ZeroDivisionError] on a zero
    divisor.  [beam_height_ft_level] and [beam_height_ft_doviak_level]
    evaluate the two beam heights in IEEE binary64 at elevation 0,
    where [np.cos] and [np.sin] return exactly 1 and 0; they show the
    size of the rounding that the exact model does not have. *)

From Stdlib Require Import Floats.
From Stdlib Require Import Reals Lra Psatz.

(* Decimal constants such as 0.00002 denote the nearest double, as they
   do in Python. *)
Set Warnings "-inexact-float".

Local Open Scope R_scope.

(** ** Values *)

Inductive float64 : Type :=
| Fin (x : R)
| PInf
| NInf
| NaN.

(** Sign of a real number, as a three-way comparison with zero. *)
Definition Rsgn (x : R) : comparison :=
  match total_order_T x 0 with
  | inleft (left _) => Lt
  | inleft (right _) => Eq
  | inright _ => Gt
  end.

(** The infinity of a given sign; the sign of zero gives [nan]
    (as in [0 * inf] and [0 / 0]). *)
Definition inf_of (c : comparison) : float64 :=
  match c with
  | Lt => NInf
  | Eq => NaN
  | Gt => PInf
  end.

(** ** Arithmetic operators of NumPy scalars *)

Definition fadd (u v : float64) : float64 :=
  match u, v with
  | NaN, _ | _, NaN => NaN
  | Fin a, Fin b => Fin (a + b)
  | PInf, NInf | NInf, PInf => NaN
  | PInf, _ | _, PInf => PInf
  | NInf, _ | _, NInf => NInf
  end.

Definition fopp (v : float64) : float64 :=
  match v with
  | Fin a => Fin (- a)
  | PInf => NInf
  | NInf => PInf
  | NaN => NaN
  end.

Definition fsub (u v : float64) : float64 := fadd u (fopp v).

Definition fmul (u v : float64) : float64 :=
  match u, v with
  | NaN, _ | _, NaN => NaN
  | Fin a, Fin b => Fin (a * b)
  | Fin a, PInf | PInf, Fin a => inf_of (Rsgn a)
  | Fin a, NInf | NInf, Fin a => inf_of (CompOpp (Rsgn a))
  | PInf, PInf | NInf, NInf => PInf
  | PInf, NInf | NInf, PInf => NInf
  end.

(** True division.  On a zero divisor NumPy warns and returns an
    infinity of the dividend's sign, or [nan] for [0 / 0]. *)
Definition fdiv (u v : float64) : float64 :=
  match u, v with
  | NaN, _ | _, NaN => NaN
  | Fin a, Fin b =>
      if Req_dec_T b 0 then inf_of (Rsgn a) else Fin (a / b)
  | Fin _, (PInf | NInf) => Fin 0
  | PInf, Fin b => if Rlt_dec b 0 then NInf else PInf
  | NInf, Fin b => if Rlt_dec b 0 then PInf else NInf
  | (PInf | NInf), (PInf | NInf) => NaN
  end.

(** [x ** 2] *)
Definition fsqr (v : float64) : float64 := fmul v v.

Declare Scope f64_scope.
Delimit Scope f64_scope with f64.
Bind Scope f64_scope with float64.
Infix "+" := fadd : f64_scope.
Infix "-" := fsub : f64_scope.
Infix "*" := fmul : f64_scope.
Infix "/" := fdiv : f64_scope.
Notation "x '**2'" := (fsqr x) (at level 1, format "x '**2'") : f64_scope.

(** ** The NumPy functions used by the module *)

Definition np_pi : float64 := Fin PI.

Definition np_sqrt (v : float64) : float64 :=
  match v with
  | Fin a => if Rlt_dec a 0 then NaN else Fin (sqrt a)
  | PInf => PInf
  | NInf | NaN => NaN
  end.

Definition np_arcsin (v : float64) : float64 :=
  match v with
  | Fin a =>
      if Rlt_dec a (-1) then NaN
      else if Rlt_dec 1 a then NaN
      else Fin (asin a)
  | _ => NaN
  end.

Definition np_sin (v : float64) : float64 :=
  match v with Fin a => Fin (sin a) | _ => NaN end.

Definition np_cos (v : float64) : float64 :=
  match v with Fin a => Fin (cos a) | _ => NaN end.

(** [np.tan] is finite on every finite double (no double is an odd
    multiple of pi/2), so it is modelled as total on [Fin]. *)
Definition np_tan (v : float64) : float64 :=
  match v with Fin a => Fin (tan a) | _ => NaN end.

(** [np.deg2rad(x)] and [np.radians(x)] are [x * pi / 180]. *)
Definition np_deg2rad (v : float64) : float64 := (v * Fin (PI / 180))%f64.

Definition np_radians (v : float64) : float64 := np_deg2rad v.

(** ** The functions of [wradlib.qual] *)

(** Default value of the keyword argument [re]. *)
Definition default_re : float64 := Fin 6371000.

Definition beam_height_ft
    (ranges elevations : float64) (degrees : bool) (re : float64) : float64 :=
  let elev := if degrees then np_deg2rad elevations else elevations in
  (((ranges **2 * (np_cos elev) **2) /
    (Fin 2 * (Fin 4 / Fin 3) * re)) + ranges * np_sin elev)%f64.

Definition beam_height_ft_doviak
    (ranges elevations : float64) (degrees : bool) (re : float64) : float64 :=
  let elev := if degrees then np_deg2rad elevations else elevations in
  let reft := ((Fin 4 / Fin 3) * re)%f64 in
  (np_sqrt (ranges **2 + reft **2 +
            Fin 2 * ranges * reft * np_sin elev) - reft)%f64.

Definition pulse_volume (ranges h theta : float64) : float64 :=
  (np_pi * h * (ranges **2) * (np_tan (np_radians theta)) **2)%f64.

Definition beam_block_frac (Th Bh a : float64) : float64 :=
  let y := (Th - Bh)%f64 in
  let Numer :=
    ((y * np_sqrt (a **2 - y **2)) +
     (a **2 * np_arcsin (y / a)) + (np_pi * a **2 / Fin 2))%f64 in
  let Denom := (np_pi * a **2)%f64 in
  let PBB := (Numer / Denom)%f64 in
  PBB.

(** ** The same function on plain Python floats

    [Th], [Bh] and [a] are Python floats.  [y], [a ** 2 - y ** 2] and
    [np.pi * a ** 2] are computed by Python; [np.sqrt] and [np.arcsin]
    turn their arguments into NumPy scalars, so the products, the sums
    and the final quotient are NumPy's.  The only division between two
    Python floats with a divisor that can be zero is [y / a]. *)

Inductive py_exception : Type :=
| ZeroDivisionError.

Inductive py_result (A : Type) : Type :=
| Returns (v : A)
| Raises (e : py_exception).

Arguments Returns {A} v.
Arguments Raises {A} e.

Definition py_bind {A B : Type} (c : py_result A) (k : A -> py_result B)
  : py_result B :=
  match c with
  | Returns v => k v
  | Raises e => Raises e
  end.

Notation "x <- c ;; k" := (py_bind c (fun x => k))
  (at level 61, c at next level, right associativity).

(** [x / y] on Python floats. *)
Definition py_truediv (x y : R) : py_result R :=
  if Req_dec_T y 0 then Raises ZeroDivisionError else Returns (x / y).

Definition beam_block_frac_py (Th Bh a : R) : py_result float64 :=
  let y := Th - Bh in
  q <- py_truediv y a ;;
  let Numer :=
    ((Fin y * np_sqrt (Fin (a ^ 2 - y ^ 2))) +
     (Fin (a ^ 2) * np_arcsin (Fin q)) + Fin (PI * a ^ 2 / 2))%f64 in
  let Denom := Fin (PI * a ^ 2) in
  let PBB := (Numer / Denom)%f64 in
  Returns PBB.

(** ** The beam heights in binary64 at elevation 0

    With [elevations = 0.0]: [np.deg2rad] gives [0.0], [np.cos] gives
    [1.0] and [np.sin] gives [0.0], exactly.  The remaining operations
    are those of IEEE binary64. *)

Definition beam_height_ft_level (ranges re : float) : float :=
  (((ranges * ranges) * (1 * 1)) / (2 * (4 / 3) * re) + ranges * 0)%float.

Definition beam_height_ft_doviak_level (ranges re : float) : float :=
  let reft := ((4 / 3) * re)%float in
  (PrimFloat.sqrt (ranges * ranges + reft * reft + 2 * ranges * reft * 0)
   - reft)%float.

(** Agreement of two results within a relative tolerance.  The lenient
    reading measures the difference against the larger magnitude, the
    strict one against the smaller; NumPy's asymmetric
    [|u - v| <= rtol * |v|] lies between the two. *)
Definition rel_close_max (rtol : R) (u v : float64) : Prop :=
  match u, v with
  | Fin a, Fin b => Rabs (a - b) <= rtol * Rmax (Rabs a) (Rabs b)
  | _, _ => False
  end.

Definition rel_close_min (rtol : R) (u v : float64) : Prop :=
  match u, v with
  | Fin a, Fin b => Rabs (a - b) <= rtol * Rmin (Rabs a) (Rabs b)
  | _, _ => False
  end.

(** The value computed by [beam_block_frac] when every operation is
    inside its domain, as a real function of the offset [y = Th - Bh]
    and the half-power radius [a]. *)
Definition PBB_R (y a : R) : R :=
  (y * sqrt (a ^ 2 - y ^ 2) + a ^ 2 * asin (y / a) + PI * a ^ 2 / 2)
  / (PI * a ^ 2).

(** The elevation in radians that both beam-height functions select
    from a numeric [elevations] and the flag [degrees]. *)
Definition elev_R (degrees : bool) (e : R) : R :=
  if degrees then e * (PI / 180) else e.

(** Two results that are numbers, the first not above the second. *)
Definition f64_le (u v : float64) : Prop :=
  match u, v with
  | Fin a, Fin b => a <= b
  | _, _ => False
  end.

(** The volume of a cone frustum of height [h] between circles of radii
    [R1] and [R2], from which the docstring of [pulse_volume] starts:
    [V = (pi/3) * h * (R^2 + R*r + r^2)]. *)
Definition frustum_volume (h R1 R2 : R) : R :=
  PI / 3 * h * (R1 ^ 2 + R1 * R2 + R2 ^ 2).

(** * Properties *)

(** ** Evaluation of the operators on numbers *)

Lemma Rsgn_pos x : 0 < x -> Rsgn x = Gt.
Proof.
  intros H. unfold Rsgn.
  destruct (total_order_T x 0) as [[L | E] | G]; try reflexivity; lra.
Qed.

Lemma Rsgn_neg x : x < 0 -> Rsgn x = Lt.
Proof.
  intros H. unfold Rsgn.
  destruct (total_order_T x 0) as [[L | E] | G]; try reflexivity; lra.
Qed.

Lemma Rsgn_zero : Rsgn 0 = Eq.
Proof.
  unfold Rsgn.
  destruct (total_order_T 0 0) as [[L | E] | G]; try reflexivity; lra.
Qed.

Lemma fdiv_fin a b : b <> 0 -> (Fin a / Fin b)%f64 = Fin (a / b).
Proof.
  intros H. unfold fdiv. destruct (Req_dec_T b 0); [contradiction | reflexivity].
Qed.

Lemma fdiv_zero a : (Fin a / Fin 0)%f64 = inf_of (Rsgn a).
Proof.
  unfold fdiv. destruct (Req_dec_T 0 0); [reflexivity | lra].
Qed.

Lemma np_sqrt_fin a : 0 <= a -> np_sqrt (Fin a) = Fin (sqrt a).
Proof.
  intros H. unfold np_sqrt. destruct (Rlt_dec a 0); [lra | reflexivity].
Qed.

Lemma np_sqrt_neg a : a < 0 -> np_sqrt (Fin a) = NaN.
Proof.
  intros H. unfold np_sqrt. destruct (Rlt_dec a 0); [reflexivity | lra].
Qed.

Lemma np_arcsin_fin a : -1 <= a <= 1 -> np_arcsin (Fin a) = Fin (asin a).
Proof.
  intros H. unfold np_arcsin.
  destruct (Rlt_dec a (-1)); [lra |].
  destruct (Rlt_dec 1 a); [lra | reflexivity].
Qed.

Lemma np_arcsin_inf c : np_arcsin (inf_of c) = NaN.
Proof. destruct c; reflexivity. Qed.

Lemma four_thirds : (Fin 4 / Fin 3)%f64 = Fin (4 / 3).
Proof. apply fdiv_fin. lra. Qed.

Lemma fadd_0_r v : (v + Fin 0)%f64 = v.
Proof. destruct v; cbn; try reflexivity. f_equal. lra. Qed.

Lemma fadd_NaN_r v : (v + NaN)%f64 = NaN.
Proof. destruct v; reflexivity. Qed.

Lemma np_arcsin_out a : a < -1 \/ 1 < a -> np_arcsin (Fin a) = NaN.
Proof.
  intros H. unfold np_arcsin.
  destruct (Rlt_dec a (-1)); [reflexivity |].
  destruct (Rlt_dec 1 a); [reflexivity | lra].
Qed.

(** Invalid operations give special values and raise nothing. *)
Example one_over_zero : (Fin 1 / Fin 0)%f64 = PInf.
Proof. rewrite fdiv_zero, Rsgn_pos by lra. reflexivity. Qed.

Example minus_one_over_zero : (Fin (-1) / Fin 0)%f64 = NInf.
Proof. rewrite fdiv_zero, Rsgn_neg by lra. reflexivity. Qed.

Example zero_over_zero : (Fin 0 / Fin 0)%f64 = NaN.
Proof. rewrite fdiv_zero, Rsgn_zero. reflexivity. Qed.

Example sqrt_minus_one : np_sqrt (Fin (-1)) = NaN.
Proof. apply np_sqrt_neg. lra. Qed.

Example arcsin_two : np_arcsin (Fin 2) = NaN.
Proof. apply np_arcsin_out. lra. Qed.

Example zero_times_inf : (Fin 0 * PInf)%f64 = NaN.
Proof. cbn. rewrite Rsgn_zero. reflexivity. Qed.

(** ** Beam height, 4/3 earth radius model *)

(** The conversion performed by [np.deg2rad] on a number. *)
Lemma np_deg2rad_fin e : np_deg2rad (Fin e) = Fin (e * (PI / 180)).
Proof. reflexivity. Qed.

(** The selected elevation, in radians, on a numeric input. *)
Lemma elev_fin (degrees : bool) e :
  (if degrees then np_deg2rad (Fin e) else Fin e)
  = Fin (if degrees then e * (PI / 180) else e).
Proof. destruct degrees; reflexivity. Qed.

Lemma beam_height_ft_fin (r e re : R) (degrees : bool) :
  beam_height_ft (Fin r) (Fin e) degrees (Fin re)
  = (Fin (r ^ 2 * cos (if degrees then e * (PI / 180) else e) ^ 2)
     / Fin (2 * (4 / 3) * re)
     + Fin (r * sin (if degrees then e * (PI / 180) else e)))%f64.
Proof.
  unfold beam_height_ft. rewrite elev_fin, four_thirds.
  unfold fsqr. cbn [fmul np_cos np_sin].
  repeat f_equal; ring.
Qed.

(** C4. On every range [r], elevation [e] and earth radius [re],
    [beam_height_ft] returns
    [(r^2 * cos^2 elev) / (2 * (4/3) * re) + r * sin elev], where [elev]
    is [e] converted to radians when [degrees] is set and [e] itself
    otherwise; at elevation 0 this is [r^2 / (2 * (4/3) * re)].  The
    quotient is NumPy's, so the equations also cover [re = 0]. *)
Theorem beam_height_ft_formula (r e re : R) (degrees : bool) :
  let elev := if degrees then e * (PI / 180) else e in
  beam_height_ft (Fin r) (Fin e) degrees (Fin re)
  = (Fin (r ^ 2 * cos elev ^ 2) / Fin (2 * (4 / 3) * re)
     + Fin (r * sin elev))%f64
  /\ beam_height_ft (Fin r) (Fin 0) degrees (Fin re)
     = (Fin (r ^ 2) / Fin (2 * (4 / 3) * re))%f64.
Proof.
  cbv zeta. split.
  - apply beam_height_ft_fin.
  - rewrite beam_height_ft_fin.
    assert (E : (if degrees then 0 * (PI / 180) else 0) = 0)
      by (destruct degrees; ring).
    rewrite E, cos_0, sin_0.
    replace (r * 0) with 0 by ring.
    replace (r ^ 2 * 1 ^ 2) with (r ^ 2) by ring.
    apply fadd_0_r.
Qed.

(** With a non-zero earth radius the result is the real number given by
    the formula. *)
Corollary beam_height_ft_real (r e re : R) (degrees : bool) :
  re <> 0 ->
  let elev := if degrees then e * (PI / 180) else e in
  beam_height_ft (Fin r) (Fin e) degrees (Fin re)
  = Fin ((r ^ 2 * cos elev ^ 2) / (2 * (4 / 3) * re) + r * sin elev).
Proof.
  intros Hre. cbv zeta. rewrite beam_height_ft_fin, fdiv_fin by lra.
  reflexivity.
Qed.

(** ** Beam height, Doviak model *)

Lemma doviak_radicand_fin (r elev re : R) :
  ((Fin r)**2 + (Fin 4 / Fin 3 * Fin re)**2
   + Fin 2 * Fin r * (Fin 4 / Fin 3 * Fin re) * np_sin (Fin elev))%f64
  = Fin (r ^ 2 + (4 / 3 * re) ^ 2 + 2 * r * (4 / 3 * re) * sin elev).
Proof. rewrite four_thirds. cbn. f_equal. ring. Qed.

Lemma doviak_radicand_squares (r reft elev : R) :
  r ^ 2 + reft ^ 2 + 2 * r * reft * sin elev
  = (r + reft * sin elev) ^ 2 + reft ^ 2 * cos elev ^ 2.
Proof.
  pose proof (sin2_cos2 elev) as H. unfold Rsqr in H.
  replace (reft ^ 2) with (reft ^ 2 * (sin elev * sin elev + cos elev * cos elev))
    at 1 by (rewrite H; ring).
  ring.
Qed.

Lemma doviak_radicand_nonneg (r reft elev : R) :
  0 <= r ^ 2 + reft ^ 2 + 2 * r * reft * sin elev.
Proof.
  rewrite doviak_radicand_squares.
  pose proof (pow2_ge_0 (r + reft * sin elev)).
  pose proof (pow2_ge_0 (reft * cos elev)).
  replace (reft ^ 2 * cos elev ^ 2) with ((reft * cos elev) ^ 2) by ring.
  lra.
Qed.

Lemma beam_height_ft_doviak_fin (r e re : R) (degrees : bool) :
  beam_height_ft_doviak (Fin r) (Fin e) degrees (Fin re)
  = Fin (sqrt (r ^ 2 + (4 / 3 * re) ^ 2
               + 2 * r * (4 / 3 * re)
                 * sin (if degrees then e * (PI / 180) else e))
         - 4 / 3 * re).
Proof.
  unfold beam_height_ft_doviak. cbv zeta.
  rewrite elev_fin, doviak_radicand_fin.
  rewrite np_sqrt_fin by apply doviak_radicand_nonneg.
  rewrite four_thirds. reflexivity.
Qed.

(** C5. In [beam_height_ft_doviak], for a range [r >= 0], any real
    elevation and a positive earth radius [re], with
    [reft = (4/3) * re]: the expression under the square root is
    [(r + reft * sin elev)^2 + reft^2 * cos^2 elev], which is not
    negative, so the square root is taken inside its domain and the
    function returns a number. *)
Theorem doviak_radicand_in_domain (r e re : R) (degrees : bool) :
  0 <= r -> 0 < re ->
  let elev := if degrees then e * (PI / 180) else e in
  let reft := 4 / 3 * re in
  let radicand := (r + reft * sin elev) ^ 2 + reft ^ 2 * cos elev ^ 2 in
  ((Fin r)**2 + (Fin 4 / Fin 3 * Fin re)**2
   + Fin 2 * Fin r * (Fin 4 / Fin 3 * Fin re) * np_sin (Fin elev))%f64
  = Fin radicand
  /\ 0 <= radicand
  /\ np_sqrt (Fin radicand) = Fin (sqrt radicand)
  /\ beam_height_ft_doviak (Fin r) (Fin e) degrees (Fin re)
     = Fin (sqrt radicand - reft).
Proof.
  intros _ _. cbv zeta.
  rewrite <- doviak_radicand_squares.
  pose proof (doviak_radicand_nonneg r (4 / 3 * re)
                (if degrees then e * (PI / 180) else e)) as Hpos.
  repeat split.
  - apply doviak_radicand_fin.
  - exact Hpos.
  - apply np_sqrt_fin, Hpos.
  - apply beam_height_ft_doviak_fin.
Qed.

Lemma doviak_radicand_in_domain_witness :
  0 <= 50000 /\ 0 < 6371000 /\
  beam_height_ft_doviak (Fin 50000) (Fin 10) true (Fin 6371000)
  = Fin (sqrt ((50000 + 4 / 3 * 6371000 * sin (10 * (PI / 180))) ^ 2
               + (4 / 3 * 6371000) ^ 2 * cos (10 * (PI / 180)) ^ 2)
         - 4 / 3 * 6371000).
Proof.
  split; [lra | split; [lra |]].
  apply (doviak_radicand_in_domain 50000 10 6371000 true); lra.
Defined.

(** ** The [degrees] flag *)

(** C6. For both beam-height functions, passing the elevation already
    converted to radians with [degrees = False] returns the same value
    as passing it in degrees with [degrees = True]. *)
Theorem degrees_flag_invariance (r e re : float64) :
  beam_height_ft r (np_deg2rad e) false re = beam_height_ft r e true re
  /\ beam_height_ft_doviak r (np_deg2rad e) false re
     = beam_height_ft_doviak r e true re.
Proof. split; reflexivity. Qed.

(** ** Pulse volume *)

Lemma pulse_volume_fin (r h theta : R) :
  pulse_volume (Fin r) (Fin h) (Fin theta)
  = Fin (PI * h * r ^ 2 * tan (theta * (PI / 180)) ^ 2).
Proof. unfold pulse_volume. cbn. f_equal. ring. Qed.

(** C8. [pulse_volume] is homogeneous of degree 2 in the range:
    doubling the range multiplies the volume by 4, and the volume at
    range 0 is 0, for every pulse width [h] and beam width [theta]. *)
Theorem pulse_volume_quadratic (r h theta : R) :
  pulse_volume (Fin 2 * Fin r) (Fin h) (Fin theta)
  = (Fin 4 * pulse_volume (Fin r) (Fin h) (Fin theta))%f64
  /\ pulse_volume (Fin 0) (Fin h) (Fin theta) = Fin 0.
Proof.
  split.
  - change (Fin 2 * Fin r)%f64 with (Fin (2 * r)).
    rewrite !pulse_volume_fin. cbn. f_equal. ring.
  - rewrite pulse_volume_fin. f_equal. ring.
Qed.

(** ** Partial beam blockage *)

Lemma Rabs_le_sqr y a : Rabs y <= Rabs a -> y ^ 2 <= a ^ 2.
Proof.
  intros H. apply Rsqr_le_abs_1 in H. unfold Rsqr in H. lra.
Qed.

Lemma Rabs_lt_sqr y a : Rabs a < Rabs y -> a ^ 2 < y ^ 2.
Proof.
  intros H. apply Rsqr_lt_abs_1 in H. unfold Rsqr in H. lra.
Qed.

Lemma sqr_pos a : a <> 0 -> 0 < a ^ 2.
Proof.
  intros Ha. apply Rsqr_pos_lt in Ha. unfold Rsqr in Ha. lra.
Qed.

Lemma ratio_bound y a : a <> 0 -> y ^ 2 <= a ^ 2 -> -1 <= y / a <= 1.
Proof.
  intros Ha H.
  assert (Hy : y = y / a * a) by (field; exact Ha).
  set (t := y / a) in *.
  assert (0 < a ^ 2) by (apply sqr_pos; exact Ha).
  assert (t ^ 2 <= 1) by (rewrite Hy in H; nra).
  split; nra.
Qed.

(** On numbers with [a <> 0] and [|Th - Bh| <= |a|] every operation of
    [beam_block_frac] is inside its domain. *)
Lemma beam_block_frac_fin (Th Bh a : R) :
  a <> 0 -> (Th - Bh) ^ 2 <= a ^ 2 ->
  beam_block_frac (Fin Th) (Fin Bh) (Fin a) = Fin (PBB_R (Th - Bh) a).
Proof.
  intros Ha Hy.
  assert (Hpi := PI_RGT_0).
  assert (Ha2 : 0 < a ^ 2) by (apply sqr_pos; exact Ha).
  unfold beam_block_frac, PBB_R, fsub, fsqr, np_pi.
  cbn [fadd fopp fmul].
  change (Th + - Bh) with (Th - Bh).
  set (y := Th - Bh) in *.
  replace (a * a + - (y * y)) with (a ^ 2 - y ^ 2) by ring.
  replace (a * a) with (a ^ 2) by ring.
  rewrite np_sqrt_fin by lra.
  rewrite (fdiv_fin y a) by exact Ha.
  rewrite np_arcsin_fin by (apply ratio_bound; assumption).
  cbn [fadd fmul].
  rewrite (fdiv_fin _ 2) by lra.
  cbn [fadd].
  rewrite fdiv_fin by nra.
  reflexivity.
Qed.

Lemma beam_block_frac_zero_radius_eq (Th Bh : R) :
  beam_block_frac (Fin Th) (Fin Bh) (Fin 0) = NaN.
Proof.
  unfold beam_block_frac, fsub, fsqr.
  cbn [fadd fopp fmul].
  rewrite fdiv_zero, np_arcsin_inf.
  cbn [fmul]. rewrite fadd_NaN_r. reflexivity.
Qed.

(** C10. With [a = 0] the result is [nan] for every [Th] and [Bh], also
    when [Th = Bh]: [y / a] is a division by zero, whose arcsine is
    [nan], and [nan] propagates to the quotient.  The value 0.5 at
    [y = 0] therefore needs a non-zero radius. *)
Theorem beam_block_frac_zero_radius (Th Bh : R) :
  beam_block_frac (Fin Th) (Fin Bh) (Fin 0) = NaN
  /\ beam_block_frac (Fin Th) (Fin Th) (Fin 0) <> Fin (1 / 2).
Proof.
  split.
  - apply beam_block_frac_zero_radius_eq.
  - rewrite beam_block_frac_zero_radius_eq. discriminate.
Qed.

Lemma ratio_outside y a : a <> 0 -> a ^ 2 < y ^ 2 -> y / a < -1 \/ 1 < y / a.
Proof.
  intros Ha H.
  assert (Hy : y = y / a * a) by (field; exact Ha).
  set (t := y / a) in *.
  assert (0 < a ^ 2) by (apply sqr_pos; exact Ha).
  assert (1 < t ^ 2) by (rewrite Hy in H; nra).
  destruct (Rlt_dec 1 t) as [L | L]; [right; exact L | left].
  destruct (Rlt_dec t (-1)) as [L' | L']; [exact L' | exfalso; nra].
Qed.

(** Outside the disc, [|Th - Bh| > |a|], the square root is taken of a
    negative number and the arcsine of a number outside [[-1, 1]] (of
    an infinity when [a = 0]). *)
Lemma sqrt_term_outside (y a : R) :
  a ^ 2 < y ^ 2 -> np_sqrt ((Fin a)**2 - (Fin y)**2) = NaN.
Proof.
  intros H. unfold fsub, fsqr. cbn [fadd fopp fmul].
  apply np_sqrt_neg. lra.
Qed.

Lemma arcsin_term_outside (y a : R) :
  a ^ 2 < y ^ 2 -> np_arcsin (Fin y / Fin a) = NaN.
Proof.
  intros H. destruct (Req_dec_T a 0) as [E | E].
  - subst a. rewrite fdiv_zero. apply np_arcsin_inf.
  - rewrite fdiv_fin by exact E. apply np_arcsin_out, ratio_outside; assumption.
Qed.

Lemma beam_block_frac_outside (Th Bh a : R) :
  a ^ 2 < (Th - Bh) ^ 2 ->
  beam_block_frac (Fin Th) (Fin Bh) (Fin a) = NaN.
Proof.
  intros H. unfold beam_block_frac.
  change (Fin Th - Fin Bh)%f64 with (Fin (Th - Bh)).
  rewrite sqrt_term_outside by exact H.
  reflexivity.
Qed.

Lemma beam_block_frac_py_returns (Th Bh a : R) :
  a <> 0 ->
  beam_block_frac_py Th Bh a
  = Returns (beam_block_frac (Fin Th) (Fin Bh) (Fin a)).
Proof.
  intros Ha. unfold beam_block_frac_py, beam_block_frac, py_truediv.
  destruct (Req_dec_T a 0) as [E | _]; [contradiction |].
  cbn [py_bind]. f_equal.
  unfold fsub, fsqr, np_pi. cbn [fadd fopp fmul].
  change (Th + - Bh) with (Th - Bh).
  rewrite (fdiv_fin (Th - Bh) a) by exact Ha.
  replace (a * a + - ((Th - Bh) * (Th - Bh))) with (a ^ 2 - (Th - Bh) ^ 2)
    by ring.
  replace (a * a) with (a ^ 2) by ring.
  rewrite (fdiv_fin (PI * a ^ 2) 2) by lra.
  destruct (np_sqrt (Fin (a ^ 2 - (Th - Bh) ^ 2)));
    destruct (np_arcsin (Fin ((Th - Bh) / a))); reflexivity.
Qed.




(** *** Anchor values *)

Lemma PBB_R_centre a : a <> 0 -> PBB_R 0 a = 1 / 2.
Proof.
  intros Ha. assert (Hpi := PI_RGT_0). unfold PBB_R.
  replace (0 / a) with 0 by (field; exact Ha).
  rewrite asin_0. field. split; lra.
Qed.

Lemma PBB_R_top a : a <> 0 -> PBB_R a a = 1.
Proof.
  intros Ha. assert (Hpi := PI_RGT_0). unfold PBB_R.
  replace (a / a) with 1 by (field; exact Ha).
  replace (a ^ 2 - a ^ 2) with 0 by ring.
  rewrite asin_1, sqrt_0. field. split; lra.
Qed.

Lemma PBB_R_bottom a : a <> 0 -> PBB_R (- a) a = 0.
Proof.
  intros Ha. assert (Hpi := PI_RGT_0). unfold PBB_R.
  replace (- a / a) with (- (1)) by (field; exact Ha).
  replace (a ^ 2 - (- a) ^ 2) with 0 by ring.
  rewrite asin_opp, asin_1, sqrt_0. field. split; lra.
Qed.

(** C7, as amended.  For a non-zero radius [a] and [y = Th - Bh]: the
    result is 0.5 when [y = 0], 1 when [y = a] and 0 when [y = -a]. *)
Theorem beam_block_frac_anchors (Th Bh a : R) :
  a <> 0 ->
  (Th - Bh = 0 -> beam_block_frac (Fin Th) (Fin Bh) (Fin a) = Fin (1 / 2))
  /\ (Th - Bh = a -> beam_block_frac (Fin Th) (Fin Bh) (Fin a) = Fin 1)
  /\ (Th - Bh = - a -> beam_block_frac (Fin Th) (Fin Bh) (Fin a) = Fin 0).
Proof.
  intros Ha. assert (Ha2 := sqr_pos a Ha).
  repeat split; intros Hy.
  - rewrite beam_block_frac_fin, Hy by (rewrite ?Hy; lra).
    f_equal. apply PBB_R_centre, Ha.
  - rewrite beam_block_frac_fin, Hy by (rewrite ?Hy; lra).
    f_equal. apply PBB_R_top, Ha.
  - rewrite beam_block_frac_fin, Hy by (rewrite ?Hy; lra).
    f_equal. apply PBB_R_bottom, Ha.
Qed.

Lemma beam_block_frac_anchors_witness :
  2 <> 0
  /\ beam_block_frac (Fin 5) (Fin 5) (Fin 2) = Fin (1 / 2)
  /\ beam_block_frac (Fin 7) (Fin 5) (Fin 2) = Fin 1
  /\ beam_block_frac (Fin 3) (Fin 5) (Fin 2) = Fin 0.
Proof.
  assert (H2 : 2 <> 0) by lra.
  split; [exact H2 |].
  split; [| split].
  - apply (proj1 (beam_block_frac_anchors 5 5 2 H2)). lra.
  - apply (proj1 (proj2 (beam_block_frac_anchors 7 5 2 H2))). lra.
  - apply (proj2 (proj2 (beam_block_frac_anchors 3 5 2 H2))). lra.
Defined.

(** C7 as stated, for all [a], fails at [a = 0]: there [y = 0] holds
    with [Th = Bh = 0] (as do [y = a] and [y = -a]), and the result is
    [nan], which is none of 0.5, 1 and 0. *)
Lemma beam_block_frac_anchor_zero_radius :
  0 - 0 = 0
  /\ beam_block_frac (Fin 0) (Fin 0) (Fin 0) = NaN
  /\ beam_block_frac (Fin 0) (Fin 0) (Fin 0) <> Fin (1 / 2).
Proof.
  pose proof (beam_block_frac_zero_radius_eq 0 0) as E.
  split; [lra | split].
  - exact E.
  - rewrite E. discriminate.
Qed.

(** *** Complementary symmetry *)

(** The terms [y * sqrt (a^2 - y^2)] and [a^2 * asin (y / a)] are odd in
    [y]; the two constants [PI * a^2 / 2] add up to the denominator. *)
Lemma PBB_R_complement y a : a <> 0 -> PBB_R y a + PBB_R (- y) a = 1.
Proof.
  intros Ha. assert (Hpi := PI_RGT_0). unfold PBB_R.
  replace (a ^ 2 - (- y) ^ 2) with (a ^ 2 - y ^ 2) by ring.
  replace (- y / a) with (- (y / a)) by (field; exact Ha).
  rewrite asin_opp. field. split; lra.
Qed.

(** C9. For [a > 0] and [|Th - Bh| <= a], swapping terrain height and
    beam height gives the complementary fraction: the two results add
    up to 1. *)
Theorem beam_block_frac_complement (Th Bh a : R) :
  0 < a -> Rabs (Th - Bh) <= a ->
  (beam_block_frac (Fin Th) (Fin Bh) (Fin a)
   + beam_block_frac (Fin Bh) (Fin Th) (Fin a))%f64 = Fin 1.
Proof.
  intros Ha Hy.
  assert (Hsq : (Th - Bh) ^ 2 <= a ^ 2).
  { apply Rabs_le_sqr. rewrite (Rabs_pos_eq a) by lra. exact Hy. }
  rewrite !beam_block_frac_fin by (try lra; nra).
  cbn [fadd]. f_equal.
  replace (Bh - Th) with (- (Th - Bh)) by ring.
  apply PBB_R_complement. lra.
Qed.

Lemma beam_block_frac_complement_witness :
  0 < 2 /\ Rabs (6 - 5) <= 2 /\
  (beam_block_frac (Fin 6) (Fin 5) (Fin 2)
   + beam_block_frac (Fin 5) (Fin 6) (Fin 2))%f64 = Fin 1.
Proof.
  assert (Ha : 0 < 2) by lra.
  assert (Hy : Rabs (6 - 5) <= 2) by (rewrite Rabs_pos_eq; lra).
  split; [exact Ha | split; [exact Hy |]].
  apply (beam_block_frac_complement 6 5 2 Ha Hy).
Defined.

(** *** Range of the formula in exact arithmetic

    The real-valued formula [PBB_R] stays inside [[0, 1]].  This is a
    fact about the formula: the binary64 evaluation of the code rounds
    [a ** 2 - y ** 2] and [y / a], and near [|y| = a] its result can
    leave the interval by about 1e-9. *)

(** For an angle of the first quadrant, [sin t * cos t] lies between 0
    and the complementary angle. *)
Lemma sin_cos_first_quadrant t :
  0 <= t <= PI / 2 -> 0 <= sin t * cos t <= PI / 2 - t.
Proof.
  intros [H0 H1]. assert (Hpi := PI_RGT_0).
  assert (Hs : 0 <= sin t) by (apply sin_ge_0; lra).
  assert (Hs1 := SIN_bound t).
  assert (Hc : 0 <= cos t) by (apply cos_ge_0; lra).
  assert (Hcx : cos t <= PI / 2 - t).
  { rewrite <- sin_shift.
    destruct (Req_dec_T (PI / 2 - t) 0) as [E | E].
    - rewrite E, sin_0. lra.
    - left. apply sin_lt_x. lra. }
  split; nra.
Qed.

Lemma sin_cos_plus_angle_bound t :
  - (PI / 2) <= t <= PI / 2 ->
  - (PI / 2) <= sin t * cos t + t <= PI / 2.
Proof.
  intros [H0 H1].
  destruct (Rle_dec 0 t) as [Ht | Ht].
  - pose proof (sin_cos_first_quadrant t (conj Ht H1)). lra.
  - assert (Hn : 0 <= - t <= PI / 2) by lra.
    pose proof (sin_cos_first_quadrant (- t) Hn) as H.
    rewrite sin_neg, cos_neg in H. lra.
Qed.

(** The formula in terms of the angle [t = asin (y / a)]. *)
Lemma PBB_R_angle y a :
  0 < a -> y ^ 2 <= a ^ 2 ->
  PBB_R y a
  = (sin (asin (y / a)) * cos (asin (y / a)) + asin (y / a) + PI / 2) / PI.
Proof.
  intros Ha Hy. assert (Hpi := PI_RGT_0).
  assert (Hq : -1 <= y / a <= 1) by (apply ratio_bound; lra).
  rewrite sin_asin, cos_asin by exact Hq.
  unfold PBB_R.
  assert (Hr : a ^ 2 - y ^ 2 = a ^ 2 * (1 - (y / a)²)).
  { unfold Rsqr. field. lra. }
  assert (H1 : 0 <= 1 - (y / a)²) by (unfold Rsqr; nra).
  rewrite Hr, sqrt_mult by (try exact H1; nra).
  rewrite sqrt_pow2 by lra.
  field. lra.
Qed.

Lemma PBB_R_range y a : 0 < a -> y ^ 2 <= a ^ 2 -> 0 <= PBB_R y a <= 1.
Proof.
  intros Ha Hy. assert (Hpi := PI_RGT_0).
  rewrite PBB_R_angle by assumption.
  pose proof (sin_cos_plus_angle_bound _ (asin_bound (y / a))) as [Hl Hu].
  set (g := sin (asin (y / a)) * cos (asin (y / a)) + asin (y / a)) in *.
  replace (sin (asin (y / a)) * cos (asin (y / a)) + asin (y / a) + PI / 2)
    with (g + PI / 2) by reflexivity.
  split.
  - apply Rmult_le_reg_r with PI; [exact Hpi |].
    replace ((g + PI / 2) / PI * PI) with (g + PI / 2) by (field; lra).
    lra.
  - apply Rmult_le_reg_r with PI; [exact Hpi |].
    replace ((g + PI / 2) / PI * PI) with (g + PI / 2) by (field; lra).
    lra.
Qed.

(** ** Agreement of the two beam-height models *)

(** The geometry behind both models, on real numbers: [S] is the square
    root taken by the Doviak formula, [s] and [c] are the sine and
    cosine of an elevation that is not below the horizon, [R0] is the
    effective earth radius.  The Doviak height [S - R0] is at most the
    4/3-model height [h1], and the gap is at most
    [r^2 / (2 * R0^2)] times the Doviak height. *)
Lemma heights_gap (r s c R0 S h1 : R) :
  0 <= r -> 0 < R0 -> 0 <= s -> s ^ 2 + c ^ 2 = 1 ->
  0 <= S -> S ^ 2 = r ^ 2 + R0 ^ 2 + 2 * r * R0 * s ->
  2 * R0 * h1 = r ^ 2 * c ^ 2 + 2 * R0 * (r * s) ->
  0 <= S - R0 /\ S - R0 <= h1
  /\ 2 * R0 ^ 2 * (h1 - (S - R0)) <= r ^ 2 * (S - R0).
Proof.
  intros Hr HR Hs Hsc HS HS2 Hh.
  set (w := S - R0) in *.
  assert (Hrs : 0 <= r * s) by (apply Rmult_le_pos; assumption).
  assert (HRrs : 0 <= R0 * (r * s)) by (apply Rmult_le_pos; lra).
  assert (Hr2 : 0 <= r ^ 2) by (apply pow2_ge_0).
  assert (Hw : 0 <= w).
  { unfold w. destruct (Rle_dec R0 S) as [L | L]; [lra | exfalso].
    assert (S * S < R0 * R0) by (apply Rmult_le_0_lt_compat; lra).
    nra. }
  assert (Hc2 : 0 <= c ^ 2) by (apply pow2_ge_0).
  assert (Hc1 : c ^ 2 <= 1) by (pose proof (pow2_ge_0 s); lra).
  assert (Hww : w ^ 2 + 2 * R0 * w = r ^ 2 + 2 * r * R0 * s)
    by (unfold w; nra).
  assert (Hprod : (w - r * s) * (w + r * s + 2 * R0) = r ^ 2 * c ^ 2)
    by nra.
  assert (Hd : 0 <= w - r * s).
  { assert (0 <= r ^ 2 * c ^ 2) by nra.
    assert (0 < w + r * s + 2 * R0) by lra.
    nra. }
  assert (Hd2 : (w - r * s) * (2 * R0) <= r ^ 2).
  { assert ((w - r * s) * (2 * R0) <= (w - r * s) * (w + r * s + 2 * R0))
      by (apply Rmult_le_compat_l; lra).
    nra. }
  assert (Hgap : 2 * R0 * (h1 - w) = (w - r * s) * (w + r * s)) by nra.
  assert (Hgap0 : 0 <= (w - r * s) * (w + r * s))
    by (apply Rmult_le_pos; lra).
  assert (Hgap1 : (w - r * s) * (w + r * s) <= (w - r * s) * (2 * w))
    by (apply Rmult_le_compat_l; lra).
  assert (Hgap2 : (w - r * s) * (2 * R0) * w <= r ^ 2 * w)
    by (apply Rmult_le_compat_r; lra).
  repeat split.
  - exact Hw.
  - nra.
  - nra.
Qed.

(** Both heights on numbers, with the default earth radius and the
    elevation in degrees, together with the facts [heights_gap] gives
    about them. *)
Lemma beam_heights_default (r e : R) :
  0 <= r -> 0 <= e <= 180 ->
  exists h1 h2 : R,
    beam_height_ft (Fin r) (Fin e) true default_re = Fin h1
    /\ beam_height_ft_doviak (Fin r) (Fin e) true default_re = Fin h2
    /\ 0 <= h2 /\ h2 <= h1
    /\ 2 * (4 / 3 * 6371000) ^ 2 * (h1 - h2) <= r ^ 2 * h2.
Proof.
  intros Hr He. assert (Hpi := PI_RGT_0).
  unfold default_re.
  rewrite beam_height_ft_fin, beam_height_ft_doviak_fin.
  rewrite fdiv_fin by lra. cbn [fadd]. cbv iota.
  set (el := e * (PI / 180)).
  set (R0 := 4 / 3 * 6371000).
  set (S := sqrt (r ^ 2 + R0 ^ 2 + 2 * r * R0 * sin el)).
  set (h1 := r ^ 2 * cos el ^ 2 / (2 * (4 / 3) * 6371000) + r * sin el).
  exists h1, (S - R0).
  split; [reflexivity | split; [reflexivity |]].
  apply (heights_gap r (sin el) (cos el) R0 S h1).
  - exact Hr.
  - unfold R0. lra.
  - apply sin_ge_0; unfold el; nra.
  - pose proof (sin2_cos2 el) as H. unfold Rsqr in H. lra.
  - apply sqrt_pos.
  - unfold S. apply pow2_sqrt, doviak_radicand_nonneg.
  - unfold h1, R0. field.
Qed.




(** The amended range starts at 1 km because of rounding.  In binary64
    the Doviak height is the small difference of two numbers near
    8.5e6, which carries an absolute error of a few 1e-9 m: at a range
    of 1 m and elevation 0 the two results, 5.886e-8 m and 5.960e-8 m,
    are more than 1e-2 apart relative to either, far outside 2e-5. *)
Example level_heights_1m_binary64 :
  let h1 := beam_height_ft_level 1 6371000 in
  let h2 := beam_height_ft_doviak_level 1 6371000 in
  (h1 <? h2)%float = true
  /\ (0.01 * h2 <? h2 - h1)%float = true
  /\ (0.00002 * h2 <? h2 - h1)%float = true.
Proof. vm_compute. repeat split. Qed.

(** From 1 km on the rounding stays far below the tolerance: at
    elevation 0 the binary64 results differ by less than 1e-7 of the
    smaller one at 1 km and by less than 2e-5 at 50 km, where they
    still differ by more than 1e-6. *)
Example level_heights_1km_50km_binary64 :
  let a1 := beam_height_ft_level 1000 6371000 in
  let a2 := beam_height_ft_doviak_level 1000 6371000 in
  let b1 := beam_height_ft_level 50000 6371000 in
  let b2 := beam_height_ft_doviak_level 50000 6371000 in
  (a2 <? a1)%float = true
  /\ (a1 - a2 <? 0.0000001 * a2)%float = true
  /\ (b2 <? b1)%float = true
  /\ (b1 - b2 <? 0.00002 * b2)%float = true
  /\ (0.000001 * b1 <? b1 - b2)%float = true.
Proof. vm_compute. repeat split. Qed.

(** * Further properties of the four functions *)

(** ** Propagation of [nan] through the operators *)

Lemma fmul_NaN_r v : (v * NaN)%f64 = NaN.
Proof. destruct v; reflexivity. Qed.

Lemma fdiv_NaN_r v : (v / NaN)%f64 = NaN.
Proof. destruct v; reflexivity. Qed.

Lemma fsub_NaN_r v : (v - NaN)%f64 = NaN.
Proof. destruct v; reflexivity. Qed.

(** ** Beam heights: general earth radius *)

Lemma beam_height_ft_value (r e re : R) (degrees : bool) :
  re <> 0 ->
  beam_height_ft (Fin r) (Fin e) degrees (Fin re)
  = Fin (r ^ 2 * cos (elev_R degrees e) ^ 2 / (2 * (4 / 3) * re)
         + r * sin (elev_R degrees e)).
Proof.
  intros Hre. unfold elev_R.
  rewrite beam_height_ft_fin, fdiv_fin by lra. reflexivity.
Qed.

Lemma beam_height_ft_doviak_value (r e re : R) (degrees : bool) :
  beam_height_ft_doviak (Fin r) (Fin e) degrees (Fin re)
  = Fin (sqrt (r ^ 2 + (4 / 3 * re) ^ 2
               + 2 * r * (4 / 3 * re) * sin (elev_R degrees e))
         - 4 / 3 * re).
Proof. apply beam_height_ft_doviak_fin. Qed.

(** X2. At range 0 both functions return height 0, for every elevation,
    either setting of [degrees] and every positive earth radius. *)
Theorem beam_heights_at_range_zero (e re : R) (degrees : bool) :
  0 < re ->
  beam_height_ft (Fin 0) (Fin e) degrees (Fin re) = Fin 0
  /\ beam_height_ft_doviak (Fin 0) (Fin e) degrees (Fin re) = Fin 0.
Proof.
  intros Hre. split.
  - rewrite beam_height_ft_value by lra. f_equal. field. lra.
  - rewrite beam_height_ft_doviak_value. f_equal.
    replace (0 ^ 2 + (4 / 3 * re) ^ 2
             + 2 * 0 * (4 / 3 * re) * sin (elev_R degrees e))
      with ((4 / 3 * re) ^ 2) by ring.
    rewrite sqrt_pow2 by lra. ring.
Qed.

Lemma beam_heights_at_range_zero_witness :
  0 < 6371000
  /\ beam_height_ft (Fin 0) (Fin 3) true (Fin 6371000) = Fin 0
  /\ beam_height_ft_doviak (Fin 0) (Fin 3) true (Fin 6371000) = Fin 0.
Proof.
  assert (H : 0 < 6371000) by lra.
  split; [exact H |].
  apply (beam_heights_at_range_zero 3 6371000 true H).
Defined.

(** X3. Pointing at the zenith (90 degrees, or [PI / 2] radians with
    [degrees = False]) both functions return the range itself, for
    every range [r >= 0] and earth radius [re > 0]. *)
Theorem beam_heights_at_zenith (r re : R) :
  0 <= r -> 0 < re ->
  beam_height_ft (Fin r) (Fin 90) true (Fin re) = Fin r
  /\ beam_height_ft_doviak (Fin r) (Fin 90) true (Fin re) = Fin r
  /\ beam_height_ft (Fin r) (Fin (PI / 2)) false (Fin re) = Fin r
  /\ beam_height_ft_doviak (Fin r) (Fin (PI / 2)) false (Fin re) = Fin r.
Proof.
  intros Hr Hre.
  assert (E90 : elev_R true 90 = PI / 2) by (unfold elev_R; field).
  assert (Eft : r ^ 2 * 0 ^ 2 / (2 * (4 / 3) * re) + r * 1 = r)
    by (field; lra).
  assert (Edv : sqrt (r ^ 2 + (4 / 3 * re) ^ 2 + 2 * r * (4 / 3 * re) * 1)
                - 4 / 3 * re = r).
  { replace (r ^ 2 + (4 / 3 * re) ^ 2 + 2 * r * (4 / 3 * re) * 1)
      with ((r + 4 / 3 * re) ^ 2) by ring.
    rewrite sqrt_pow2 by lra. ring. }
  repeat split.
  - rewrite beam_height_ft_value, E90, cos_PI2, sin_PI2 by lra.
    f_equal. exact Eft.
  - rewrite beam_height_ft_doviak_value, E90, sin_PI2. f_equal. exact Edv.
  - rewrite beam_height_ft_value by lra. unfold elev_R.
    rewrite cos_PI2, sin_PI2. f_equal. exact Eft.
  - rewrite beam_height_ft_doviak_value. unfold elev_R.
    rewrite sin_PI2. f_equal. exact Edv.
Qed.

Lemma beam_heights_at_zenith_witness :
  0 <= 1000 /\ 0 < 6371000
  /\ beam_height_ft (Fin 1000) (Fin 90) true (Fin 6371000) = Fin 1000
  /\ beam_height_ft_doviak (Fin 1000) (Fin 90) true (Fin 6371000) = Fin 1000.
Proof.
  assert (Hr : 0 <= 1000) by lra.
  assert (Hre : 0 < 6371000) by lra.
  split; [exact Hr | split; [exact Hre |]].
  pose proof (beam_heights_at_zenith 1000 6371000 Hr Hre) as (H1 & H2 & _).
  split; [exact H1 | exact H2].
Defined.

(** X4. Both heights grow with the range: for [0 <= r1 <= r2], an earth
    radius [re > 0] and an elevation at or above the horizon, the height
    at [r1] is not above the height at [r2]. *)
Theorem beam_heights_monotone_in_range (r1 r2 e re : R) (degrees : bool) :
  0 <= r1 <= r2 -> 0 < re -> 0 <= sin (elev_R degrees e) ->
  f64_le (beam_height_ft (Fin r1) (Fin e) degrees (Fin re))
         (beam_height_ft (Fin r2) (Fin e) degrees (Fin re))
  /\ f64_le (beam_height_ft_doviak (Fin r1) (Fin e) degrees (Fin re))
            (beam_height_ft_doviak (Fin r2) (Fin e) degrees (Fin re)).
Proof.
  intros [Hr1 Hr12] Hre Hs.
  set (el := elev_R degrees e) in *.
  assert (Hsq : r1 ^ 2 <= r2 ^ 2) by nra.
  split.
  - rewrite !beam_height_ft_value by lra. fold el. cbn [f64_le].
    assert (Hc : 0 <= cos el ^ 2) by apply pow2_ge_0.
    assert (Hd : 0 <= / (2 * (4 / 3) * re))
      by (left; apply Rinv_0_lt_compat; lra).
    assert (H1 : r1 ^ 2 * cos el ^ 2 <= r2 ^ 2 * cos el ^ 2)
      by (apply Rmult_le_compat_r; assumption).
    assert (H2 : r1 ^ 2 * cos el ^ 2 / (2 * (4 / 3) * re)
                 <= r2 ^ 2 * cos el ^ 2 / (2 * (4 / 3) * re))
      by (apply Rmult_le_compat_r; assumption).
    assert (H3 : r1 * sin el <= r2 * sin el)
      by (apply Rmult_le_compat_r; assumption).
    lra.
  - rewrite !beam_height_ft_doviak_value. fold el. cbn [f64_le].
    assert (H : r1 ^ 2 + (4 / 3 * re) ^ 2 + 2 * r1 * (4 / 3 * re) * sin el
                <= r2 ^ 2 + (4 / 3 * re) ^ 2 + 2 * r2 * (4 / 3 * re) * sin el).
    { assert (0 <= (4 / 3 * re) * sin el) by (apply Rmult_le_pos; lra).
      nra. }
    apply sqrt_le_1_alt in H. lra.
Qed.

Lemma beam_heights_monotone_in_range_witness :
  0 <= 1000 <= 2000 /\ 0 < 6371000 /\ 0 <= sin (elev_R false 0)
  /\ f64_le (beam_height_ft (Fin 1000) (Fin 0) false (Fin 6371000))
            (beam_height_ft (Fin 2000) (Fin 0) false (Fin 6371000)).
Proof.
  assert (Hr : 0 <= 1000 <= 2000) by lra.
  assert (Hre : 0 < 6371000) by lra.
  assert (Hs : 0 <= sin (elev_R false 0)) by (unfold elev_R; rewrite sin_0; lra).
  split; [exact Hr | split; [exact Hre | split; [exact Hs |]]].
  apply (proj1 (beam_heights_monotone_in_range 1000 2000 0 6371000 false
                  Hr Hre Hs)).
Defined.

(** X5. With an earth radius of 0 the 4/3 model divides by zero and
    never returns a number (the quotient is an infinity or [nan], and so
    is the sum).  The Doviak formula has no division and returns
    [|r|]. *)
Theorem beam_heights_zero_earth_radius (r e : R) (degrees : bool) :
  (forall h : R, beam_height_ft (Fin r) (Fin e) degrees (Fin 0) <> Fin h)
  /\ beam_height_ft_doviak (Fin r) (Fin e) degrees (Fin 0) = Fin (Rabs r).
Proof.
  set (el := elev_R degrees e).
  split.
  - intros h. rewrite beam_height_ft_fin.
    replace (2 * (4 / 3) * 0) with 0 by ring.
    rewrite fdiv_zero.
    destruct (Rsgn _); cbn [inf_of fadd]; discriminate.
  - rewrite beam_height_ft_doviak_value. fold el. f_equal.
    replace (r ^ 2 + (4 / 3 * 0) ^ 2 + 2 * r * (4 / 3 * 0) * sin el)
      with (Rsqr r) by (unfold Rsqr; ring).
    rewrite sqrt_Rsqr_abs. ring.
Qed.

(** X6. A [nan] in the range, the elevation or the earth radius gives
    [nan] from both beam-height functions, whatever the other arguments
    are: an invalid input is never turned into a number. *)
Theorem beam_heights_propagate_nan (r e re : float64) (degrees : bool) :
  r = NaN \/ e = NaN \/ re = NaN ->
  beam_height_ft r e degrees re = NaN
  /\ beam_height_ft_doviak r e degrees re = NaN.
Proof.
  intros [H | [H | H]]; subst.
  - split; reflexivity.
  - assert (E : (if degrees then np_deg2rad NaN else NaN) = NaN)
      by (destruct degrees; reflexivity).
    unfold beam_height_ft, beam_height_ft_doviak. rewrite E.
    cbn [np_cos np_sin fsqr].
    split.
    + rewrite !fmul_NaN_r. reflexivity.
    + rewrite fmul_NaN_r, fadd_NaN_r. reflexivity.
  - unfold beam_height_ft, beam_height_ft_doviak.
    split.
    + rewrite fmul_NaN_r, fdiv_NaN_r. reflexivity.
    + rewrite !fmul_NaN_r. cbn [fsqr fmul]. rewrite fadd_NaN_r. reflexivity.
Qed.

Lemma beam_heights_propagate_nan_witness :
  (Fin 1000 = NaN \/ NaN = NaN \/ Fin 6371000 = NaN)
  /\ beam_height_ft (Fin 1000) NaN true (Fin 6371000) = NaN
  /\ beam_height_ft_doviak (Fin 1000) NaN true (Fin 6371000) = NaN.
Proof.
  assert (H : Fin 1000 = NaN \/ NaN = NaN \/ Fin 6371000 = NaN)
    by (right; left; reflexivity).
  split; [exact H |].
  apply (beam_heights_propagate_nan (Fin 1000) NaN (Fin 6371000) true H).
Defined.

(** X7. Both heights are periodic in the elevation: adding 360 degrees
    (with [degrees = True]) or [2 * PI] radians (with [degrees = False])
    does not change the result, for every range and earth radius. *)
Theorem beam_heights_periodic (r e re : R) :
  beam_height_ft (Fin r) (Fin (e + 360)) true (Fin re)
  = beam_height_ft (Fin r) (Fin e) true (Fin re)
  /\ beam_height_ft_doviak (Fin r) (Fin (e + 360)) true (Fin re)
     = beam_height_ft_doviak (Fin r) (Fin e) true (Fin re)
  /\ beam_height_ft (Fin r) (Fin (e + 2 * PI)) false (Fin re)
     = beam_height_ft (Fin r) (Fin e) false (Fin re)
  /\ beam_height_ft_doviak (Fin r) (Fin (e + 2 * PI)) false (Fin re)
     = beam_height_ft_doviak (Fin r) (Fin e) false (Fin re).
Proof.
  assert (E : (e + 360) * (PI / 180) = e * (PI / 180) + 2 * PI) by field.
  repeat split.
  - rewrite !beam_height_ft_fin. cbv iota.
    rewrite E, cos_plus, sin_plus, sin_2PI, cos_2PI.
    repeat f_equal; ring.
  - rewrite !beam_height_ft_doviak_fin. cbv iota.
    rewrite E, sin_plus, sin_2PI, cos_2PI.
    repeat f_equal; ring.
  - rewrite !beam_height_ft_fin. cbv iota.
    rewrite cos_plus, sin_plus, sin_2PI, cos_2PI.
    repeat f_equal; ring.
  - rewrite !beam_height_ft_doviak_fin. cbv iota.
    rewrite sin_plus, sin_2PI, cos_2PI.
    repeat f_equal; ring.
Qed.

(** ** Pulse volume *)

(** X8. [pulse_volume] is homogeneous of degree 2 in the range and of
    degree 1 in the pulse width: scaling the range by [k] and the pulse
    width by [c] multiplies the volume by [k^2 * c]. *)
Theorem pulse_volume_scaling (k c r h theta : R) :
  pulse_volume (Fin (k * r)) (Fin (c * h)) (Fin theta)
  = (Fin (k ^ 2 * c) * pulse_volume (Fin r) (Fin h) (Fin theta))%f64.
Proof.
  rewrite !pulse_volume_fin. cbn [fmul]. f_equal. ring.
Qed.

(** X9. The volume is not negative when the pulse width is not. *)
Theorem pulse_volume_nonneg (r h theta : R) :
  0 <= h ->
  f64_le (Fin 0) (pulse_volume (Fin r) (Fin h) (Fin theta)).
Proof.
  intros Hh. rewrite pulse_volume_fin. cbn [f64_le].
  assert (Hpi := PI_RGT_0).
  assert (H1 : 0 <= PI * h) by (apply Rmult_le_pos; lra).
  assert (H2 : 0 <= PI * h * r ^ 2)
    by (apply Rmult_le_pos; [exact H1 | apply pow2_ge_0]).
  apply Rmult_le_pos; [exact H2 | apply pow2_ge_0].
Qed.

Lemma pulse_volume_nonneg_witness :
  0 <= 300 /\ f64_le (Fin 0) (pulse_volume (Fin 1000) (Fin 300) (Fin 1)).
Proof.
  assert (H : 0 <= 300) by lra.
  split; [exact H |].
  apply (pulse_volume_nonneg 1000 300 1 H).
Defined.

(** X10. The volume does not depend on the sign of the range or of the
    beam width, and a beam width of 0 gives volume 0. *)
Theorem pulse_volume_even (r h theta : R) :
  pulse_volume (Fin (- r)) (Fin h) (Fin theta)
  = pulse_volume (Fin r) (Fin h) (Fin theta)
  /\ pulse_volume (Fin r) (Fin h) (Fin (- theta))
     = pulse_volume (Fin r) (Fin h) (Fin theta)
  /\ pulse_volume (Fin r) (Fin h) (Fin 0) = Fin 0.
Proof.
  rewrite !pulse_volume_fin. repeat split; f_equal.
  - ring.
  - replace (- theta * (PI / 180)) with (- (theta * (PI / 180))) by ring.
    rewrite tan_neg. ring.
  - rewrite Rmult_0_l, tan_0. ring.
Qed.

(** X11. The result is the volume of the cone frustum of the docstring
    with both radii equal to [tan (theta * pi / 180) * range], that is
    of height [h]: the cylinder the docstring derives. *)
Theorem pulse_volume_is_frustum (r h theta : R) :
  pulse_volume (Fin r) (Fin h) (Fin theta)
  = Fin (frustum_volume h (tan (theta * (PI / 180)) * r)
                          (tan (theta * (PI / 180)) * r)).
Proof.
  rewrite pulse_volume_fin. unfold frustum_volume. f_equal. field.
Qed.

(** X12. A [nan] in any argument of [pulse_volume] or of
    [beam_block_frac] gives [nan], whatever the other arguments are. *)
Theorem pulse_volume_block_frac_propagate_nan (x y z : float64) :
  x = NaN \/ y = NaN \/ z = NaN ->
  pulse_volume x y z = NaN /\ beam_block_frac x y z = NaN.
Proof.
  intros [H | [H | H]]; subst.
  - split.
    + unfold pulse_volume. cbn [fsqr fmul].
      rewrite fmul_NaN_r. reflexivity.
    + reflexivity.
  - split.
    + reflexivity.
    + unfold beam_block_frac. rewrite fsub_NaN_r. reflexivity.
  - split.
    + unfold pulse_volume. cbn [np_radians np_deg2rad fmul np_tan fsqr].
      apply fmul_NaN_r.
    + unfold beam_block_frac. cbn [fsqr fmul fsub fadd np_sqrt].
      rewrite fmul_NaN_r. reflexivity.
Qed.

Lemma pulse_volume_block_frac_propagate_nan_witness :
  (Fin 1 = NaN \/ Fin 2 = NaN \/ NaN = NaN)
  /\ pulse_volume (Fin 1) (Fin 2) NaN = NaN
  /\ beam_block_frac (Fin 1) (Fin 2) NaN = NaN.
Proof.
  assert (H : Fin 1 = NaN \/ Fin 2 = NaN \/ NaN = NaN)
    by (right; right; reflexivity).
  split; [exact H |].
  apply (pulse_volume_block_frac_propagate_nan (Fin 1) (Fin 2) NaN H).
Defined.
